(** * TextSummarizationBOT: the two Streamlit entity-extraction pages

    A shallow embedding of [TextSummarizationBOT/app.py] (variant 1, the
    medical entity extractor) and [TextSummarizationBOT/app2.py] (variant 2,
    the named-entity extractor), and the properties of the behavioural
    specification that can be stated over it.

    Both programs are Streamlit scripts: the framework executes the script
    from top to bottom once when the page is loaded and once more after
    every widget interaction.  One such execution is a _run_; a run is
    modelled as a computation in a small state-and-exception monad that
    records, in order, everything the script shows and every call it makes
    to the outside world. *)

From Stdlib Require Import String Ascii NArith ZArith PrimFloat Bool Lia List.
Import ListNotations.

Local Open Scope list_scope.

(** ** Python strings

    A Python [str] is a sequence of Unicode code points.  Literals of the
    source that are plain ASCII are written with [str]; the few emoji of
    variant 2 are given by their code points. *)

Definition pychar := N.
Definition pystr := list pychar.

Definition str (s : string) : pystr := map N_of_ascii (list_ascii_of_string s).

Fixpoint pystr_eqb (a b : pystr) : bool :=
  match a, b with
  | [], [] => true
  | x :: a', y :: b' => N.eqb x y && pystr_eqb a' b'
  | _, _ => false
  end.

(** Truth value of a string: [bool(s)] is [False] exactly for [""]. *)
Definition truthy (s : pystr) : bool :=
  match s with [] => false | _ :: _ => true end.

(** Truth value of [os.getenv(...)]: [None] and [""] are both falsy. *)
Definition truthy_opt (o : option pystr) : bool :=
  match o with None => false | Some s => truthy s end.

(** [str.isspace] on one code point: the white-space table of CPython
    ([_PyUnicode_IsWhitespace]). *)
Definition py_isspace (c : pychar) : bool :=
  ((9 <=? c) && (c <=? 13) || (28 <=? c) && (c <=? 32)
   || (c =? 133) || (c =? 160) || (c =? 5760)
   || (8192 <=? c) && (c <=? 8202)
   || (c =? 8232) || (c =? 8233) || (c =? 8239) || (c =? 8287)
   || (c =? 12288))%N.

Fixpoint lstrip (s : pystr) : pystr :=
  match s with
  | [] => []
  | c :: t => if py_isspace c then lstrip t else s
  end.

Definition rstrip (s : pystr) : pystr := rev (lstrip (rev s)).

(** [s.strip()] with no argument. *)
Definition strip (s : pystr) : pystr := rstrip (lstrip s).

(** The inputs the specification calls empty or whitespace-only. *)
Definition blank (s : pystr) : bool := forallb py_isspace s.

(** Occurrences of [needle] in [hay], counted by starting position. *)
Fixpoint starts_with (p s : pystr) : bool :=
  match p, s with
  | [], _ => true
  | x :: p', y :: s' => N.eqb x y && starts_with p' s'
  | _ :: _, [] => false
  end.

Fixpoint occurrences (needle hay : pystr) : nat :=
  match hay with
  | [] => if starts_with needle [] then 1 else 0
  | _ :: t => (if starts_with needle hay then 1 else 0) + occurrences needle t
  end.

(** ** Exceptions *)

Record exn := mkExn { exn_class : string; exn_str : pystr }.

Definition ValueError (m : string) : exn := mkExn "ValueError" (str m).
Definition KeyError (k : pystr) : exn := mkExn "KeyError" (str "'" ++ k ++ str "'").

(** ** [PromptTemplate.format]

    [PromptTemplate(input_variables=['text'], template=t).format(text=x)]
    formats [t] as a Python format string with the keyword arguments given.
    The fragment modelled is the one the two templates live in: literal
    text, the doubled braces that stand for a single brace, and
    replacement fields that are a plain keyword name.  Conversions, format
    specifications and nested fields are not modelled: such a field is
    looked up under its whole text and so reported as a missing key. *)

Definition lbrace : pychar := 123%N.
Definition rbrace : pychar := 125%N.

Inductive piece :=
| Lit (c : pychar)
| Field (name : pystr).

Definition and_then {E A B} (r : E + A) (f : A -> B) : E + B :=
  match r with inl e => inl e | inr a => inr (f a) end.

(** [parse_fmt s field]: [field] is [Some n] while a replacement field is
    open, [n] being the part of its name read so far, in reverse. *)
Fixpoint parse_fmt (s : pystr) (field : option pystr) : exn + list piece :=
  match s with
  | [] =>
      match field with
      | None => inr []
      | Some _ => inl (ValueError "expected '}' before end of string")
      end
  | c :: t =>
      match field with
      | Some name =>
          if (c =? rbrace)%N
          then and_then (parse_fmt t None) (cons (Field (rev name)))
          else parse_fmt t (Some (c :: name))
      | None =>
          if (c =? lbrace)%N then
            match t with
            | [] => inl (ValueError "Single '{' encountered in format string")
            | c' :: t' =>
                if (c' =? lbrace)%N
                then and_then (parse_fmt t' None) (cons (Lit lbrace))
                else parse_fmt t (Some [])
            end
          else if (c =? rbrace)%N then
            match t with
            | [] => inl (ValueError "Single '}' encountered in format string")
            | c' :: t' =>
                if (c' =? rbrace)%N
                then and_then (parse_fmt t' None) (cons (Lit rbrace))
                else inl (ValueError "Single '}' encountered in format string")
            end
          else and_then (parse_fmt t None) (cons (Lit c))
      end
  end.

Definition kwargs := list (pystr * pystr).

Fixpoint kw_lookup (k : pystr) (kw : kwargs) : option pystr :=
  match kw with
  | [] => None
  | (k', v) :: r => if pystr_eqb k k' then Some v else kw_lookup k r
  end.

Fixpoint render (ps : list piece) (kw : kwargs) : exn + pystr :=
  match ps with
  | [] => inr []
  | Lit c :: r => and_then (render r kw) (cons c)
  | Field n :: r =>
      match kw_lookup n kw with
      | None => inl (KeyError n)
      | Some v => and_then (render r kw) (app v)
      end
  end.

Definition format (template : pystr) (kw : kwargs) : exn + pystr :=
  match parse_fmt template None with
  | inl e => inl e
  | inr ps => render ps kw
  end.

(** The text of a template before and after its first replacement field. *)
Fixpoint before_field (t : pystr) : pystr :=
  match t with
  | [] => []
  | c :: r => if (c =? lbrace)%N then [] else c :: before_field r
  end.

Fixpoint after_field (t : pystr) : pystr :=
  match t with
  | [] => []
  | c :: r => if (c =? rbrace)%N then r else after_field r
  end.

(** ** The outside world

    What a run cannot decide by itself is supplied by a [World]: the process
    environment as [load_dotenv()] leaves it, whether the [ChatGroq]
    constructor accepts its arguments, what the model endpoint answers (the
    client's time-out and retries happen inside [invoke] and show only in
    its outcome), and the readings of [time.time()], which are Python
    floats: IEEE 754 double-precision numbers, here Rocq's primitive
    floats with the same arithmetic. *)

(** The keyword arguments of [ChatGroq(...)]; the constructed client is
    identified with them. *)
Record ChatGroq := {
  api_key : option pystr;
  model : pystr;
  temperature : Z;
  max_tokens : Z;
  timeout : Z;
  max_retries : Z
}.

Inductive message :=
| HumanMessage (content : pystr).

(** What [llm.invoke] returns: an object that may or may not have a
    [content] attribute and that [str()] converts to [response_str]. *)
Record Response := {
  response_content : option pystr;
  response_str : pystr
}.

Record World := {
  environ : string -> option pystr;
  ChatGroq_init : ChatGroq -> option exn;
  invoke : ChatGroq -> list message -> exn + Response;
  clock : nat -> float
}.

(** ** What a run leaves behind

    The events of a run, in the order they happen: the calls to the outside
    world and the elements put on the page.  [Shown b s] is one of
    [st.title], [st.write], [st.markdown], [st.subheader], [st.error],
    [st.warning] and [st.info] with the text [s].  [ShownElapsed t] is the
    [st.info] of variant 2 whose caption is
    [f"... Processing completed in {processing_time:.2f} seconds"] with
    [processing_time = t]: the event keeps the float that is formatted,
    not the text the two-decimal format makes of it. *)

Inductive box := Title | Body | Markdown | Subheader | ErrorBox | WarningBox | InfoBox.

Inductive event :=
| LoadDotenv
| Getenv (name : string)
| NewChatGroq (args : ChatGroq)
| Invoke (llm : ChatGroq) (messages : list message)
| SetPageConfig (page_title : pystr)
| Shown (b : box) (body : pystr)
| ShownElapsed (processing_time : float)
| TextArea (label : pystr) (key : option string)
| Columns
| Button (label : pystr)
| DownloadButton (label data file_name mime : pystr)
| SpinnerOpen (text : pystr)
| SpinnerClose.

(** ** The run monad

    The state of a run: the [trace] written so far, the value the page's
    text area holds ([text_box]; Streamlit keeps it between runs, and in
    variant 2 it is also [st.session_state.input_area]), the button whose
    press started the run, the keys of the widgets created so far in the
    run, and the number of clock readings taken. *)

Record RunState := {
  trace : list event;
  text_box : pystr;
  clicked : option pystr;
  instantiated : list string;
  ticks : nat
}.

(** A step ends with a value or with a signal: a Python exception, or one
    of Streamlit's two script-control signals ([st.stop()] and
    [st.experimental_rerun()]), which [except Exception] does not catch. *)
Inductive signal :=
| Raise (e : exn)
| StopScript
| RerunScript.

Definition M (A : Type) : Type := RunState -> (signal + A) * RunState.

Definition ret {A} (a : A) : M A := fun s => (inr a, s).

Definition bind {A B} (m : M A) (k : A -> M B) : M B :=
  fun s =>
    match m s with
    | (inr a, s') => k a s'
    | (inl sig, s') => (inl sig, s')
    end.

Declare Scope run_scope.
Delimit Scope run_scope with run.
Notation "x <- c ;; k" := (bind c (fun x => k))
  (at level 61, c at next level, right associativity) : run_scope.
Notation "c ;; k" := (bind c (fun _ => k))
  (at level 61, right associativity) : run_scope.
Local Open Scope run_scope.

Definition log (e : event) (s : RunState) : RunState :=
  {| trace := trace s ++ [e]; text_box := text_box s; clicked := clicked s;
     instantiated := instantiated s; ticks := ticks s |}.

Definition emit (e : event) : M unit := fun s => (inr tt, log e s).

Definition throw {A} (sig : signal) : M A := fun s => (inl sig, s).

Definition when (c : bool) (m : M unit) : M unit := if c then m else ret tt.

(** [try: body / except Exception as e: handler e]. *)
Definition try_except {A} (body : M A) (handler : exn -> M A) : M A :=
  fun s =>
    match body s with
    | (inl (Raise e), s') => handler e s'
    | r => r
    end.

(** [with st.spinner(text): body]: the spinner is taken down when the
    block is left, however it is left. *)
Definition with_spinner {A} (text : pystr) (body : M A) : M A :=
  fun s =>
    let (r, s') := body (log (SpinnerOpen text) s) in
    (r, log SpinnerClose s').

(** *** Library calls *)

Definition load_dotenv : M unit := emit LoadDotenv.

Definition os_getenv (W : World) (name : string) : M (option pystr) :=
  emit (Getenv name) ;; ret (environ W name).

Definition new_ChatGroq (W : World) (args : ChatGroq) : M ChatGroq :=
  emit (NewChatGroq args) ;;
  match ChatGroq_init W args with
  | Some e => throw (Raise e)
  | None => ret args
  end.

Definition llm_invoke (W : World) (llm : ChatGroq) (messages : list message) : M Response :=
  emit (Invoke llm messages) ;;
  match invoke W llm messages with
  | inl e => throw (Raise e)
  | inr r => ret r
  end.

Definition time_time (W : World) : M float :=
  fun s =>
    (inr (clock W (ticks s)),
     {| trace := trace s; text_box := text_box s; clicked := clicked s;
        instantiated := instantiated s; ticks := S (ticks s) |}).

Definition prompt_format (template : pystr) (kw : kwargs) : M pystr :=
  match format template kw with
  | inl e => throw (Raise e)
  | inr p => ret p
  end.

Definition st_set_page_config (page_title : pystr) : M unit := emit (SetPageConfig page_title).
Definition st_title (s : pystr) : M unit := emit (Shown Title s).
Definition st_write (s : pystr) : M unit := emit (Shown Body s).
Definition st_markdown (s : pystr) : M unit := emit (Shown Markdown s).
Definition st_subheader (s : pystr) : M unit := emit (Shown Subheader s).
Definition st_error (s : pystr) : M unit := emit (Shown ErrorBox s).
Definition st_warning (s : pystr) : M unit := emit (Shown WarningBox s).
Definition st_info (s : pystr) : M unit := emit (Shown InfoBox s).
Definition st_columns : M unit := emit Columns.

Definition st_download_button (label data file_name mime : pystr) : M unit :=
  emit (DownloadButton label data file_name mime).

Definition st_stop {A} : M A := throw StopScript.
Definition st_experimental_rerun {A} : M A := throw RerunScript.

(** [st.text_area(label, key=key)] returns the value the text area holds
    and, when it has a key, binds that key to the widget for this run. *)
Definition st_text_area (label : pystr) (key : option string) : M pystr :=
  fun s =>
    (inr (text_box s),
     {| trace := trace s ++ [TextArea label key]; text_box := text_box s;
        clicked := clicked s;
        instantiated := match key with
                        | Some k => k :: instantiated s
                        | None => instantiated s
                        end;
        ticks := ticks s |}).

(** [st.button(label)] is [True] only in the run its own press started. *)
Definition st_button (label : pystr) : M bool :=
  fun s =>
    (inr match clicked s with
         | Some l => pystr_eqb l label
         | None => false
         end,
     log (Button label) s).

Definition StreamlitAPIException (key : string) : exn :=
  mkExn "StreamlitAPIException"
    (str "`st.session_state." ++ str key
       ++ str "` cannot be modified after the widget with key `"
       ++ str key ++ str "` is instantiated.").

(** [st.session_state.<key> = value], for the key of the text area (the
    only key either script writes).  Streamlit refuses to assign a key
    once the widget bound to it has been created in the current run, and
    raises [StreamlitAPIException]; before that, the assignment sets the
    value the widget will show. *)
Definition session_state_set (key : string) (value : pystr) : M unit :=
  fun s =>
    if existsb (String.eqb key) (instantiated s)
    then (inl (Raise (StreamlitAPIException key)), s)
    else (inr tt,
          {| trace := trace s; text_box := value; clicked := clicked s;
             instantiated := instantiated s; ticks := ticks s |}).

(** The answer shown to the user:
    [response.content if hasattr(response, 'content') else str(response)]. *)
Definition result_of (response : Response) : pystr :=
  match response_content response with
  | Some c => c
  | None => response_str response
  end.

(** ** Variant 1: app.py *)

Module App.

(** [template], app.py lines 37-45. *)
Definition template : pystr := str
"You are a medical expert and good at English. Extract all the medical entities from the given tweet and assign the appropriate medical entity labels.

Input text: {text}

Please format your response as a markdown table with the following columns:
| Entity | Label | Context |

Only include medical terms, conditions, symptoms, medications, or healthcare-related entities.
".

(** The script, top to bottom. *)
Definition script (W : World) : M unit :=
  load_dotenv ;;
  groq_api_key <- os_getenv W "GROQ_API_KEY" ;;
  st_set_page_config (str "Medical Entity Extractor") ;;
  when (negb (truthy_opt groq_api_key))
    (st_error (str "GROQ_API_KEY not found. Please check your environment variables.") ;;
     st_stop) ;;
  llm <- try_except
           (new_ChatGroq W
              {| api_key := groq_api_key;
                 model := str "mixtral-8x7b-32768";
                 temperature := 0;
                 max_tokens := 500;
                 timeout := 10;
                 max_retries := 2 |})
           (fun e =>
              st_error (str "Error initializing ChatGroq: " ++ exn_str e) ;;
              st_stop) ;;
  st_title (str "Medical Entity Extractor") ;;
  st_write (str "This tool extracts medical entities from text using the Groq LLM API.") ;;
  input_text <- st_text_area (str "Enter the text to analyze:") None ;;
  analyze <- st_button (str "Analyze") ;;
  when analyze
    (if truthy (strip input_text) then
       with_spinner (str "Analyzing text...")
         (try_except
            (formatted_prompt <- prompt_format template [(str "text", input_text)] ;;
             response <- llm_invoke W llm [HumanMessage formatted_prompt] ;;
             let result := result_of response in
             st_subheader (str "Extracted Medical Entities") ;;
             st_markdown result ;;
             st_download_button (str "Download Results") result
               (str "medical_entities.txt") (str "text/plain"))
            (fun e =>
               st_error (str "Error processing text: " ++ exn_str e) ;;
               st_info (str "Please try again or check your API configuration.")))
     else st_warning (str "Please enter some text to analyze.")).

End App.

(** ** Variant 2: app2.py *)

Module App2.

Definition dquote : pystr := [34%N].

(** [PROMPT_TEMPLATE], app2.py lines 21-42.  The two double quotes of the
    example line are spliced in as [dquote]; the first line ends in a
    space, as it does in the source. *)
Definition PROMPT_TEMPLATE : pystr := str
"You are an expert in entity extraction and natural language processing. 
Extract named entities from the given text, focusing on people, organizations, locations, and associated geographic information.

Input text: {text}

Provide a structured analysis in the following markdown table format:
| Name | Entity_Type | City | Country | Country_Code |

Guidelines:
- Name: The extracted entity name
- Entity_Type: One of [PERSON, ORGANIZATION, LOCATION]
- City: Associated city (if applicable)
- Country: Full country name (if applicable)
- Country_Code: ISO 2-letter country code (if applicable)

Example:
For text: " ++ dquote ++ str "Tim Cook from Apple in Cupertino, USA announced..." ++ dquote ++ str "
| Tim Cook | PERSON | Cupertino | United States | US |
| Apple | ORGANIZATION | Cupertino | United States | US |

Only include relevant named entities. Leave fields blank with '-' if not applicable.
Ensure all country codes are valid ISO 2-letter codes.".

(** The emoji of the source, by code point. *)
Definition magnifier : pystr := [128269%N].
Definition warning_sign : pystr := [9888%N; 65039%N].
Definition arrows : pystr := [128260%N].
Definition bar_chart : pystr := [128202%N].
Definition inbox_tray : pystr := [128229%N].
Definition cross_mark : pystr := [10060%N].
Definition wastebasket : pystr := [128465%N; 65039%N].

Definition analyze_label : pystr := magnifier ++ str " Analyze".
Definition clear_label : pystr := wastebasket ++ str " Clear".

(** An [EntityExtractor] object: its one attribute. *)
Record EntityExtractor := { self_api_key : option pystr }.

Definition setup_ui : M unit :=
  st_title (magnifier ++ str " Advanced Entity Extractor") ;;
  st_markdown (str "
        This tool extracts named entities from text and identifies associated geographic information.
        Enter your text below to analyze people, organizations, and locations.
        ").

(** [EntityExtractor.__init__]. *)
Definition new_EntityExtractor (W : World) : M EntityExtractor :=
  key <- os_getenv W "GROQ_API_KEY" ;;
  setup_ui ;;
  ret {| self_api_key := key |}.

(** [initialize_llm]: the client, or [None] after showing why not. *)
Definition initialize_llm (W : World) (self : EntityExtractor) : M (option ChatGroq) :=
  try_except
    (llm <- new_ChatGroq W
              {| api_key := self_api_key self;
                 model := str "mixtral-8x7b-32768";
                 temperature := 0;
                 max_tokens := 1000;
                 timeout := 15;
                 max_retries := 3 |} ;;
     ret (Some llm))
    (fun e =>
       st_error (str "Failed to initialize LLM: " ++ exn_str e) ;;
       ret None).

(** [process_text]: the two early [return]s are the branches that end
    without going on ([if not llm] holds exactly when [initialize_llm]
    returned [None]). *)
Definition process_text (W : World) (self : EntityExtractor) (input_text : pystr) : M unit :=
  if negb (truthy_opt (self_api_key self)) then
    st_error (warning_sign ++ str " GROQ_API_KEY not found. Please check your environment variables.")
  else
    llm <- initialize_llm W self ;;
    match llm with
    | None => ret tt
    | Some llm =>
        try_except
          (formatted_prompt <- prompt_format PROMPT_TEMPLATE [(str "text", input_text)] ;;
           with_spinner (arrows ++ str " Analyzing text...")
             (start_time <- time_time W ;;
              response <- llm_invoke W llm [HumanMessage formatted_prompt] ;;
              end_time <- time_time W ;;
              let processing_time := (end_time - start_time)%float in
              let result := result_of response in
              st_subheader (bar_chart ++ str " Extracted Entities") ;;
              st_markdown result ;;
              emit (ShownElapsed processing_time) ;;
              st_download_button (inbox_tray ++ str " Download Results") result
                (str "extracted_entities.md") (str "text/markdown")))
          (fun e =>
             st_error (cross_mark ++ str " Error during processing: " ++ exn_str e) ;;
             st_info (str "Please try again or check your input text."))
    end.

Definition main (W : World) : M unit :=
  extractor <- new_EntityExtractor W ;;
  input_text <- st_text_area (str "Enter text to analyze:") (Some "input_area"%string) ;;
  st_columns ;;
  analyze_button <- st_button analyze_label ;;
  clear_button <- st_button clear_label ;;
  when clear_button
    (session_state_set "input_area" [] ;;
     st_experimental_rerun) ;;
  if analyze_button && truthy (strip input_text) then
    process_text W extractor input_text
  else if analyze_button then
    st_warning (warning_sign ++ str " Please enter some text to analyze.")
  else ret tt.

(** The script, top to bottom. *)
Definition script (W : World) : M unit :=
  load_dotenv ;;
  st_set_page_config (str "Entity Extractor") ;;
  main W.

End App2.

(** ** Runs and sessions *)

Inductive status :=
| Finished
| Stopped
| Rerun
| Uncaught (e : exn).

Record outcome := {
  out_status : status;
  out_trace : list event;
  out_text : pystr
}.

(** One execution of a script, started with [text] in the text area and,
    when the run was started by a button, the label of that button.  An
    exception nobody caught ends the run; Streamlit prints it on the page
    and keeps serving the session. *)
Definition run (script : World -> M unit) (W : World)
    (text : pystr) (click : option pystr) : outcome :=
  let (r, s) := script W {| trace := []; text_box := text; clicked := click;
                            instantiated := []; ticks := 0 |} in
  {| out_status := match r with
                   | inr _ => Finished
                   | inl StopScript => Stopped
                   | inl RerunScript => Rerun
                   | inl (Raise e) => Uncaught e
                   end;
     out_trace := trace s;
     out_text := text_box s |}.

(** What starts a run: the page is loaded (or reloaded), the user commits
    new text in the text area, or the user presses a button. *)
Inductive action :=
| Load
| Edit (new_text : pystr)
| Click (label : pystr).

(** One interaction: the run it starts and, if that run asked for a rerun,
    the run that follows at once. *)
Definition interact (script : World -> M unit) (W : World)
    (text : pystr) (a : action) : outcome :=
  let r := match a with
           | Load => run script W text None
           | Edit t => run script W t None
           | Click l => run script W text (Some l)
           end in
  match out_status r with
  | Rerun =>
      let r' := run script W (out_text r) None in
      {| out_status := out_status r';
         out_trace := out_trace r ++ out_trace r';
         out_text := out_text r' |}
  | _ => r
  end.

(** A session: a list of interactions, each in the world it happens in,
    starting from the text the page holds; the text each one leaves is
    what the next one finds.  The result is the outcomes in order. *)
Fixpoint interactions (script : World -> M unit) (text : pystr)
    (steps : list (World * action)) : list outcome :=
  match steps with
  | [] => []
  | (W, a) :: rest =>
      let r := interact script W text a in
      r :: interactions script (out_text r) rest
  end.

Definition session_trace (rs : list outcome) : list event :=
  List.concat (map out_trace rs).

(** *** Observations on traces *)

Definition is_invoke (e : event) : bool :=
  match e with Invoke _ _ => true | _ => false end.
Definition is_getenv (e : event) : bool :=
  match e with Getenv _ => true | _ => false end.
Definition is_new_client (e : event) : bool :=
  match e with NewChatGroq _ => true | _ => false end.
Definition is_input_widget (e : event) : bool :=
  match e with TextArea _ _ | Button _ => true | _ => false end.

Definition network_calls (t : list event) : nat := length (filter is_invoke t).
Definition env_reads (t : list event) : nat := length (filter is_getenv t).
Definition clients_built (t : list event) : nat := length (filter is_new_client t).
Definition input_widgets (t : list event) : nat := length (filter is_input_widget t).

Definition spinner_delta (e : event) : Z :=
  match e with SpinnerOpen _ => 1 | SpinnerClose => -1 | _ => 0 end.

(** Spinners still showing at the end of a trace. *)
Definition spinners_open (t : list event) : Z :=
  fold_left (fun n e => (n + spinner_delta e)%Z) t 0%Z.

(** The clients constructed and the requests sent, in order. *)
Fixpoint clients_of (t : list event) : list ChatGroq :=
  match t with
  | [] => []
  | NewChatGroq args :: r => args :: clients_of r
  | _ :: r => clients_of r
  end.

Fixpoint requests_of (t : list event) : list (ChatGroq * list message) :=
  match t with
  | [] => []
  | Invoke llm messages :: r => (llm, messages) :: requests_of r
  | _ :: r => requests_of r
  end.

(** ** Vocabulary of the statements *)

Definition GROQ_API_KEY : string := "GROQ_API_KEY".

(** The credential is present and the client constructor accepts it. *)
Definition ready (W : World) : Prop :=
  truthy_opt (environ W GROQ_API_KEY) = true /\
  forall args, ChatGroq_init W args = None.

(** The model client answers every request with [r]. *)
Definition answers (W : World) (r : Response) : Prop :=
  forall llm messages, invoke W llm messages = inr r.

(** The model client fails every request with the exception [e]. *)
Definition fails_with (W : World) (e : exn) : Prop :=
  forall llm messages, invoke W llm messages = inl e.

(** The fixed model configuration of each variant, as the source passes it
    to [ChatGroq]. *)
Definition config1 (key : option pystr) : ChatGroq :=
  {| api_key := key; model := str "mixtral-8x7b-32768"; temperature := 0;
     max_tokens := 500; timeout := 10; max_retries := 2 |}.

Definition config2 (key : option pystr) : ChatGroq :=
  {| api_key := key; model := str "mixtral-8x7b-32768"; temperature := 0;
     max_tokens := 1000; timeout := 15; max_retries := 3 |}.

(** The prompt each variant sends for the input [text]. *)
Definition prompt1 (text : pystr) : pystr :=
  before_field App.template ++ text ++ after_field App.template.

Definition prompt2 (text : pystr) : pystr :=
  before_field App2.PROMPT_TEMPLATE ++ text ++ after_field App2.PROMPT_TEMPLATE.

Definition missing_key_message : pystr :=
  str "GROQ_API_KEY not found. Please check your environment variables.".

Definition please_enter_text : pystr := str "Please enter some text to analyze.".

(** A run halts before accepting input: the script was stopped and had
    created neither the text area nor a button. *)
Definition halts_before_input (r : outcome) : Prop :=
  out_status r = Stopped /\ input_widgets (out_trace r) = 0%nat.

(** What every request of a variant looks like. *)
Definition request_as_configured (llm : ChatGroq) (tokens seconds : Z)
    (prompt : pystr) (q : ChatGroq * list message) : Prop :=
  fst q = llm /\ temperature (fst q) = 0%Z /\ max_tokens (fst q) = tokens /\
  timeout (fst q) = seconds /\ snd q = [HumanMessage prompt].

(** *** Sample worlds *)

(** Clock readings of a sample world: [time.time()] before and after a
    call that took a quarter of a second. *)
Definition sample_clock (n : nat) : float :=
  match n with
  | O => 1700000000.5%float
  | S _ => 1700000000.75%float
  end.

Definition sample_env (key : option pystr) (name : string) : option pystr :=
  if String.eqb name GROQ_API_KEY then key else None.

Definition reply (c : pystr) : Response :=
  {| response_content := Some c; response_str := str "content='...'" |}.

(** A working installation whose model answers [c] to everything. *)
Definition world_answering (c : pystr) : World :=
  {| environ := sample_env (Some (str "gsk_example"));
     ChatGroq_init := fun _ => None;
     invoke := fun _ _ => inr (reply c);
     clock := sample_clock |}.

(** The same installation with the environment variable unset. *)
Definition world_without_key : World :=
  {| environ := sample_env None;
     ChatGroq_init := fun _ => None;
     invoke := fun _ _ => inr (reply []);
     clock := sample_clock |}.

Definition timed_out : exn := mkExn "APITimeoutError" (str "Request timed out.").

(** A working installation whose model endpoint times out. *)
Definition world_timing_out : World :=
  {| environ := sample_env (Some (str "gsk_example"));
     ChatGroq_init := fun _ => None;
     invoke := fun _ _ => inl timed_out;
     clock := sample_clock |}.

Definition bad_client : exn := mkExn "ValidationError" (str "1 validation error for ChatGroq").

(** An installation in which the client cannot be constructed. *)
Definition world_init_failing : World :=
  {| environ := sample_env (Some (str "gsk_example"));
     ChatGroq_init := fun _ => Some bad_client;
     invoke := fun _ _ => inr (reply []);
     clock := sample_clock |}.

Definition table : pystr := str "| A | B | C |".

(** A response without a [content] attribute. *)
Definition bare_response : Response :=
  {| response_content := None; response_str := str "<Response [200]>" |}.

Definition world_bare : World :=
  {| environ := sample_env (Some (str "gsk_example"));
     ChatGroq_init := fun _ => None;
     invoke := fun _ _ => inr bare_response;
     clock := sample_clock |}.

(** *** Further observations

    Used to describe whole runs and sessions. *)

Definition is_download (e : event) : bool :=
  match e with DownloadButton _ _ _ _ => true | _ => false end.
Definition is_error_box (e : event) : bool :=
  match e with Shown ErrorBox _ => true | _ => false end.

Definition downloads (t : list event) : nat := List.length (filter is_download t).
Definition errors_shown (t : list event) : nat := List.length (filter is_error_box t).


(** The run was started by the button labelled [l]. *)
Definition label_is (click : option pystr) (l : pystr) : bool :=
  match click with
  | Some c => pystr_eqb c l
  | None => false
  end.

(** The condition under which a run of each variant reaches
    [llm.invoke]: Analyze was pressed, the text is not blank, the
    credential is there and the constructor accepted it. *)
Definition sends1 (W : World) (text : pystr) (click : option pystr) : bool :=
  label_is click (str "Analyze") && negb (blank text)
  && truthy_opt (environ W GROQ_API_KEY)
  && match ChatGroq_init W (config1 (environ W GROQ_API_KEY)) with
     | None => true
     | Some _ => false
     end.

Definition sends2 (W : World) (text : pystr) (click : option pystr) : bool :=
  label_is click App2.analyze_label && negb (blank text)
  && truthy_opt (environ W GROQ_API_KEY)
  && match ChatGroq_init W (config2 (environ W GROQ_API_KEY)) with
     | None => true
     | Some _ => false
     end.

(** The endpoint answers the request a variant sends for [text]. *)
Definition answered1 (W : World) (text : pystr) : bool :=
  match invoke W (config1 (environ W GROQ_API_KEY)) [HumanMessage (prompt1 text)] with
  | inr _ => true
  | inl _ => false
  end.

Definition answered2 (W : World) (text : pystr) : bool :=
  match invoke W (config2 (environ W GROQ_API_KEY)) [HumanMessage (prompt2 text)] with
  | inr _ => true
  | inl _ => false
  end.

(** The order in which a run may touch the outside world: the environment
    first, then the constructor, then the endpoint, each at most once.
    [stage] counts the steps already taken. *)
Fixpoint in_order (stage : nat) (t : list event) : bool :=
  match t with
  | [] => true
  | Getenv _ :: r => Nat.eqb stage 0 && in_order 1 r
  | NewChatGroq _ :: r => Nat.eqb stage 1 && in_order 2 r
  | Invoke _ _ :: r => Nat.eqb stage 2 && in_order 3 r
  | _ :: r => in_order stage r
  end.

(** Presses of the button labelled [l] among the steps of a session. *)
Definition is_press (l : pystr) (step : World * action) : bool :=
  match snd step with
  | Click c => pystr_eqb c l
  | _ => false
  end.

Definition presses (l : pystr) (steps : list (World * action)) : nat :=
  List.length (filter (is_press l) steps).

Definition download_label : pystr := str "Download Results".

Definition is_warning_box (e : event) : bool :=
  match e with Shown WarningBox _ => true | _ => false end.

Definition warnings_shown (t : list event) : nat :=
  List.length (filter is_warning_box t).

(** Variant 1 gets as far as its page body: the credential is there and
    the constructor accepted it. *)
Definition page_up1 (W : World) : bool :=
  truthy_opt (environ W GROQ_API_KEY)
  && match ChatGroq_init W (config1 (environ W GROQ_API_KEY)) with
     | None => true
     | Some _ => false
     end.

(** ** Evaluating a run

    [run_eval] unfolds the script and the monad and leaves the library
    functions ([str], [strip], [format]) and the world folded;
    [run_simpl] also decides the comparisons of button labels and formats
    the prompt (with the rewrite rules of [prompt]), and [run_cases] splits on whatever the run still waits
    for. *)

Ltac run_eval :=
  cbv [run interact App.script App2.script App2.main App2.process_text
       App2.initialize_llm App2.new_EntityExtractor App2.setup_ui
       App2.self_api_key
       bind ret emit throw when try_except with_spinner load_dotenv os_getenv
       new_ChatGroq llm_invoke time_time prompt_format st_set_page_config
       st_title st_write st_markdown st_subheader st_error st_warning st_info
       st_columns st_download_button st_stop st_experimental_rerun
       st_text_area st_button session_state_set log trace text_box clicked
       instantiated ticks out_status out_trace out_text negb andb orb
       existsb String.eqb Ascii.eqb Bool.eqb GROQ_API_KEY];
  cbn [app].

Ltac decide_labels :=
  repeat match goal with
  | |- context [pystr_eqb ?a ?b] =>
      let v := eval vm_compute in (pystr_eqb a b) in
      lazymatch v with
      | true => change (pystr_eqb a b) with true
      | false => change (pystr_eqb a b) with false
      end
  end.

Ltac in_trace := cbn [In out_trace]; solve [auto 30].

Ltac not_in_trace H :=
  cbn [In out_trace] in H;
  repeat match type of H with
         | _ \/ _ => destruct H as [H | H]
         end;
  try discriminate H; try contradiction.

Create Rewrite HintDb prompt.

Ltac run_simpl :=
  run_eval; decide_labels; run_eval;
  try autorewrite with prompt; run_eval.

Ltac run_cases :=
  run_simpl;
  repeat match goal with
  | |- context [match ?x with _ => _ end] =>
      lazymatch x with
      | context [match _ with _ => _ end] => fail
      | _ => destruct x eqn:?; run_simpl
      end
  end.

Ltac open_ready H :=
  let Hk := fresh "Hkey" in
  let Hc := fresh "Hinit" in
  destruct H as [Hk Hc]; unfold GROQ_API_KEY in Hk.

(** ** Strings: stripping and counting *)

Lemma pystr_eqb_refl (s : pystr) : pystr_eqb s s = true.
Proof.
  induction s as [|c s IH]; [reflexivity|].
  cbn. now rewrite N.eqb_refl, IH.
Qed.

Lemma pystr_eqb_eq (a b : pystr) : pystr_eqb a b = true -> a = b.
Proof.
  revert b. induction a as [|x a IH]; intros [|y b]; cbn; try discriminate.
  - reflexivity.
  - intros H. apply andb_prop in H as [Hx Hab].
    apply N.eqb_eq in Hx. apply IH in Hab. now subst.
Qed.

Lemma label_is_other (click : option pystr) (l : pystr) :
  click <> Some l -> label_is click l = false.
Proof.
  destruct click as [c|]; [|reflexivity]. cbn. intros H.
  destruct (pystr_eqb c l) eqn:E; [|reflexivity].
  apply pystr_eqb_eq in E. now subst.
Qed.

Lemma lstrip_blank (s : pystr) : blank s = true -> lstrip s = [].
Proof.
  induction s as [|c s IH]; cbn; [reflexivity|].
  intros H. apply andb_prop in H as [Hc Hs]. rewrite Hc. auto.
Qed.

Lemma lstrip_nil_blank (s : pystr) : lstrip s = [] -> blank s = true.
Proof.
  induction s as [|c s IH]; cbn; [reflexivity|].
  destruct (py_isspace c); [auto | discriminate].
Qed.

Lemma blank_app (a b : pystr) : blank (a ++ b) = blank a && blank b.
Proof. apply forallb_app. Qed.

Lemma blank_rev (s : pystr) : blank (rev s) = blank s.
Proof.
  induction s as [|c s IH]; [reflexivity|].
  cbn [rev]. rewrite blank_app, IH. cbn. rewrite andb_true_r. apply andb_comm.
Qed.

(** What [lstrip] keeps starts with a character that is not white space. *)
Lemma lstrip_keeps (s : pystr) :
  lstrip s = [] \/ exists c t, lstrip s = c :: t /\ py_isspace c = false.
Proof.
  induction s as [|c s IH]; cbn; [now left|].
  destruct (py_isspace c) eqn:E; [exact IH|].
  right. now exists c, s.
Qed.

(** [input_text.strip()] is falsy exactly on empty and whitespace-only
    input. *)
Lemma truthy_strip (s : pystr) : truthy (strip s) = negb (blank s).
Proof.
  unfold strip, rstrip.
  destruct (blank s) eqn:B.
  - now rewrite (lstrip_blank s B).
  - destruct (lstrip_keeps s) as [E | (c & t & E & Hc)].
    + apply lstrip_nil_blank in E. congruence.
    + rewrite E. cbn [negb].
      destruct (lstrip (rev (c :: t))) as [|d u] eqn:L.
      * apply lstrip_nil_blank in L. rewrite blank_rev in L.
        cbn in L. rewrite Hc in L. discriminate.
      * destruct (rev (d :: u)) eqn:R; [|reflexivity].
        apply (f_equal (@rev _)) in R. rewrite rev_involutive in R.
        discriminate.
Qed.

Lemma strip_blank (s : pystr) : blank s = true -> truthy (strip s) = false.
Proof. intros H. now rewrite truthy_strip, H. Qed.

Lemma strip_not_blank (s : pystr) : blank s = false -> truthy (strip s) = true.
Proof. intros H. now rewrite truthy_strip, H. Qed.

Lemma starts_with_app (p s : pystr) : starts_with p (p ++ s) = true.
Proof.
  induction p as [|c p IH]; [reflexivity|].
  cbn. now rewrite N.eqb_refl, IH.
Qed.

Lemma occurrences_skip (needle a b : pystr) :
  occurrences needle b <= occurrences needle (a ++ b).
Proof.
  induction a as [|c a IH]; cbn [app occurrences]; lia.
Qed.

Lemma occurrences_at (needle b : pystr) : 1 <= occurrences needle (needle ++ b).
Proof.
  destruct needle as [|c n].
  - destruct b; cbn; lia.
  - cbn [app occurrences].
    change (c :: n ++ b) with ((c :: n) ++ b).
    rewrite starts_with_app. lia.
Qed.

Lemma occurrences_embedded (needle a b : pystr) :
  1 <= occurrences needle (a ++ needle ++ b).
Proof.
  pose proof (occurrences_skip needle a (needle ++ b)).
  pose proof (occurrences_at needle b). lia.
Qed.

(** ** Formatting the prompt *)

Lemma render_literals (a : pystr) (rest : list piece) (kw : kwargs) :
  render (map Lit a ++ rest) kw = and_then (render rest kw) (app a).
Proof.
  induction a as [|c a IH]; cbn.
  - now destruct (render rest kw).
  - rewrite IH. now destruct (render rest kw).
Qed.

Lemma render_one_field (a b name v : pystr) :
  render (map Lit a ++ Field name :: map Lit b) [(name, v)] = inr (a ++ v ++ b).
Proof.
  rewrite render_literals. cbn [render kw_lookup].
  rewrite pystr_eqb_refl.
  replace (map Lit b) with (map Lit b ++ []) by apply app_nil_r.
  rewrite render_literals. cbn. now rewrite app_nil_r.
Qed.

Lemma parse_template :
  parse_fmt App.template None =
  inr (map Lit (before_field App.template)
         ++ Field (str "text") :: map Lit (after_field App.template)).
Proof. vm_compute. reflexivity. Qed.

Lemma parse_PROMPT_TEMPLATE :
  parse_fmt App2.PROMPT_TEMPLATE None =
  inr (map Lit (before_field App2.PROMPT_TEMPLATE)
         ++ Field (str "text") :: map Lit (after_field App2.PROMPT_TEMPLATE)).
Proof. vm_compute. reflexivity. Qed.

Lemma format_template (text : pystr) :
  format App.template [(str "text", text)] = inr (prompt1 text).
Proof.
  unfold format. rewrite parse_template. apply render_one_field.
Qed.

Lemma format_PROMPT_TEMPLATE (text : pystr) :
  format App2.PROMPT_TEMPLATE [(str "text", text)] = inr (prompt2 text).
Proof.
  unfold format. rewrite parse_PROMPT_TEMPLATE. apply render_one_field.
Qed.

#[local] Hint Rewrite format_template format_PROMPT_TEMPLATE : prompt.

(** ** The prompt formatter *)

(** C2, refuted as stated: the input can occur in the formatted prompt
    more than once.  The word "medical" is already part of the first
    template, and the name "Tim Cook" part of the second. *)
Lemma input_may_occur_more_than_once :
  format App.template [(str "text", str "medical")] = inr (prompt1 (str "medical")) /\
  occurrences (str "medical") (prompt1 (str "medical")) = 5 /\
  format App2.PROMPT_TEMPLATE [(str "text", str "Tim Cook")] = inr (prompt2 (str "Tim Cook")) /\
  occurrences (str "Tim Cook") (prompt2 (str "Tim Cook")) = 3.
Proof.
  split; [apply format_template|].
  split; [vm_compute; reflexivity|].
  split; [apply format_PROMPT_TEMPLATE|].
  vm_compute; reflexivity.
Qed.

(** C2, as amended: for every input text and both templates, formatting
    succeeds and the prompt is the template with its one [{text}] field
    replaced by the input, unchanged and unescaped; so the input occurs in
    the prompt at least once. *)
Theorem prompt_embeds_input_verbatim (text : pystr) :
  occurrences (str "{text}") App.template = 1 /\
  occurrences (str "{text}") App2.PROMPT_TEMPLATE = 1 /\
  format App.template [(str "text", text)]
    = inr (before_field App.template ++ text ++ after_field App.template) /\
  format App2.PROMPT_TEMPLATE [(str "text", text)]
    = inr (before_field App2.PROMPT_TEMPLATE ++ text ++ after_field App2.PROMPT_TEMPLATE) /\
  1 <= occurrences text (prompt1 text) /\
  1 <= occurrences text (prompt2 text).
Proof.
  split; [vm_compute; reflexivity|].
  split; [vm_compute; reflexivity|].
  split; [apply format_template|].
  split; [apply format_PROMPT_TEMPLATE|].
  split; apply occurrences_embedded.
Qed.

(** ** Missing credential *)

(** What variant 1 does without a credential, whatever the page state. *)
Lemma App_run_without_key (W : World) (text : pystr) (click : option pystr) :
  truthy_opt (environ W GROQ_API_KEY) = false ->
  run App.script W text click =
  {| out_status := Stopped;
     out_trace := [LoadDotenv; Getenv GROQ_API_KEY;
                   SetPageConfig (str "Medical Entity Extractor");
                   Shown ErrorBox missing_key_message];
     out_text := text |}.
Proof.
  unfold GROQ_API_KEY. intros Hkey. run_simpl. rewrite Hkey. reflexivity.
Qed.

(** C1, refuted as stated: with the variable unset, variant 2 loads the
    page to the end, text area and both buttons included, and shows no
    message at all. *)
Lemma App2_accepts_input_without_key :
  let r := run App2.script world_without_key [] None in
  environ world_without_key GROQ_API_KEY = None /\
  ~ halts_before_input r /\
  out_status r = Finished /\
  input_widgets (out_trace r) = 3 /\
  In (TextArea (str "Enter text to analyze:") (Some "input_area"%string)) (out_trace r) /\
  filter (fun e => match e with Shown ErrorBox _ => true | _ => false end)
    (out_trace r) = [].
Proof.
  cbv zeta. split; [reflexivity|].
  split; [intros [H _]; vm_compute in H; discriminate|].
  split; [vm_compute; reflexivity|].
  split; [vm_compute; reflexivity|].
  split; [|vm_compute; reflexivity].
  vm_compute. auto 10.
Qed.

(** C1, as amended: when [GROQ_API_KEY] is unset or empty, variant 1 shows
    the missing-credential error and stops before the text area or a
    button exists, building no client and calling nothing.  Variant 2
    does not halt: it renders the text area and both buttons; when Analyze
    is pressed on text that is not blank it shows the missing-credential
    error, builds no client, calls nothing and finishes the run. *)
Theorem missing_credential (W : World) (text : pystr) (click : option pystr) :
  truthy_opt (environ W GROQ_API_KEY) = false ->
  let r1 := run App.script W text click in
  let r2 := run App2.script W text click in
  halts_before_input r1 /\
  In (Shown ErrorBox missing_key_message) (out_trace r1) /\
  clients_built (out_trace r1) = 0 /\
  network_calls (out_trace r1) = 0 /\
  input_widgets (out_trace r2) = 3 /\
  clients_built (out_trace r2) = 0 /\
  network_calls (out_trace r2) = 0 /\
  (click = Some App2.analyze_label -> blank text = false ->
   out_status r2 = Finished /\
   In (Shown ErrorBox (App2.warning_sign ++ str " " ++ missing_key_message))
      (out_trace r2)).
Proof.
  intros Hkey r1 r2. subst r1 r2.
  rewrite (App_run_without_key W text click Hkey).
  unfold halts_before_input, GROQ_API_KEY in *.
  split; [split; reflexivity|].
  split; [in_trace|].
  split; [reflexivity|].
  split; [reflexivity|].
  split; [|split; [|split]].
  - run_simpl. now run_cases.
  - run_simpl. rewrite Hkey. now run_cases.
  - run_simpl. rewrite Hkey. now run_cases.
  - intros -> Hb. apply strip_not_blank in Hb.
    run_simpl. rewrite Hkey, Hb. run_eval. split; [reflexivity|].
    in_trace.
Qed.

(** [missing_credential] at a world without the variable. *)
Lemma missing_credential_witness :
  truthy_opt (environ world_without_key GROQ_API_KEY) = false /\
  halts_before_input (run App.script world_without_key (str "aspirin") None) /\
  network_calls (out_trace (run App2.script world_without_key (str "aspirin")
                              (Some App2.analyze_label))) = 0.
Proof.
  split; [reflexivity|].
  pose proof (missing_credential world_without_key (str "aspirin") None eq_refl) as H1.
  pose proof (missing_credential world_without_key (str "aspirin")
                (Some App2.analyze_label) eq_refl) as H2.
  cbv zeta in H1, H2.
  destruct H1 as [Hhalt _].
  destruct H2 as (_ & _ & _ & _ & _ & _ & Hcalls & _).
  split; [exact Hhalt | exact Hcalls].
Defined.

(** ** Blank input *)

(** C3: pressing Analyze on empty or whitespace-only input never reaches
    the model endpoint, in either variant, and the run in which the press
    is seen shows the "please enter text" warning.  (Variant 1 creates its
    Analyze button only after the credential check and the construction of
    the client, so there the warning is stated for the runs that have the
    button; variant 2 always creates it.) *)
Theorem blank_input_is_refused (W : World) (text : pystr) :
  blank text = true ->
  let r1 := run App.script W text (Some (str "Analyze")) in
  let r2 := run App2.script W text (Some App2.analyze_label) in
  network_calls (out_trace r1) = 0 /\
  (In (Button (str "Analyze")) (out_trace r1) ->
   In (Shown WarningBox please_enter_text) (out_trace r1)) /\
  (ready W -> In (Shown WarningBox please_enter_text) (out_trace r1)) /\
  network_calls (out_trace r2) = 0 /\
  In (Button App2.analyze_label) (out_trace r2) /\
  In (Shown WarningBox (App2.warning_sign ++ str " " ++ please_enter_text))
     (out_trace r2).
Proof.
  intros Hb r1 r2. subst r1 r2. apply strip_blank in Hb.
  split; [|split; [|split; [|split; [|split]]]].
  - run_cases; first [congruence | reflexivity].
  - run_cases; try congruence; intros H; first [in_trace | not_in_trace H].
  - intros Hr. open_ready Hr.
    run_simpl. rewrite Hkey, Hinit. run_simpl. rewrite Hb. run_simpl. in_trace.
  - run_cases; first [congruence | reflexivity].
  - run_simpl. rewrite Hb. run_eval. in_trace.
  - run_simpl. rewrite Hb. run_eval. in_trace.
Qed.

(** [blank_input_is_refused] at an input of two spaces. *)
Lemma blank_input_is_refused_witness :
  blank (str "  ") = true /\
  network_calls (out_trace (run App.script (world_answering table) (str "  ")
                              (Some (str "Analyze")))) = 0 /\
  In (Shown WarningBox (App2.warning_sign ++ str " " ++ please_enter_text))
     (out_trace (run App2.script (world_answering table) (str "  ")
                   (Some App2.analyze_label))).
Proof.
  split; [reflexivity|].
  pose proof (blank_input_is_refused (world_answering table) (str "  ") eq_refl) as H.
  cbv zeta in H. destruct H as (H1 & _ & _ & _ & _ & H2).
  split; [exact H1 | exact H2].
Defined.

(** ** A successful analysis *)

(** The whole of a successful run of variant 1. *)
Lemma App_run_answered (W : World) (text : pystr) (r : Response) :
  ready W -> blank text = false -> answers W r ->
  run App.script W text (Some (str "Analyze")) =
  {| out_status := Finished;
     out_trace :=
       [LoadDotenv; Getenv GROQ_API_KEY;
        SetPageConfig (str "Medical Entity Extractor");
        NewChatGroq (config1 (environ W GROQ_API_KEY));
        Shown Title (str "Medical Entity Extractor");
        Shown Body (str "This tool extracts medical entities from text using the Groq LLM API.");
        TextArea (str "Enter the text to analyze:") None;
        Button (str "Analyze");
        SpinnerOpen (str "Analyzing text...");
        Invoke (config1 (environ W GROQ_API_KEY)) [HumanMessage (prompt1 text)];
        Shown Subheader (str "Extracted Medical Entities");
        Shown Markdown (result_of r);
        DownloadButton (str "Download Results") (result_of r)
          (str "medical_entities.txt") (str "text/plain");
        SpinnerClose];
     out_text := text |}.
Proof.
  intros Hr Hb Ha. open_ready Hr. apply strip_not_blank in Hb.
  unfold config1, GROQ_API_KEY.
  run_simpl. rewrite Hkey, Hinit. run_simpl. rewrite Hb. run_simpl.
  rewrite Ha. reflexivity.
Qed.

(** The whole of a successful run of variant 2. *)
Lemma App2_run_answered (W : World) (text : pystr) (r : Response) :
  ready W -> blank text = false -> answers W r ->
  run App2.script W text (Some App2.analyze_label) =
  {| out_status := Finished;
     out_trace :=
       [LoadDotenv; SetPageConfig (str "Entity Extractor");
        Getenv GROQ_API_KEY;
        Shown Title (App2.magnifier ++ str " Advanced Entity Extractor");
        Shown Markdown (str "
        This tool extracts named entities from text and identifies associated geographic information.
        Enter your text below to analyze people, organizations, and locations.
        ");
        TextArea (str "Enter text to analyze:") (Some "input_area"%string);
        Columns;
        Button App2.analyze_label;
        Button App2.clear_label;
        NewChatGroq (config2 (environ W GROQ_API_KEY));
        SpinnerOpen (App2.arrows ++ str " Analyzing text...");
        Invoke (config2 (environ W GROQ_API_KEY)) [HumanMessage (prompt2 text)];
        Shown Subheader (App2.bar_chart ++ str " Extracted Entities");
        Shown Markdown (result_of r);
        ShownElapsed (clock W 1 - clock W 0)%float;
        DownloadButton (App2.inbox_tray ++ str " Download Results") (result_of r)
          (str "extracted_entities.md") (str "text/markdown");
        SpinnerClose];
     out_text := text |}.
Proof.
  intros Hr Hb Ha. open_ready Hr. apply strip_not_blank in Hb.
  unfold config2, GROQ_API_KEY.
  run_simpl. rewrite Hb, Hkey. run_simpl. rewrite Hinit. run_simpl.
  rewrite Ha. reflexivity.
Qed.

(** C4: whatever completion string the model client returns, the markdown
    shown and the content of the download are that string, and the file
    offered is [medical_entities.txt] in variant 1 and
    [extracted_entities.md] in variant 2. *)
Theorem completion_round_trip (W : World) (text completion : pystr) (r : Response) :
  ready W -> blank text = false -> answers W r ->
  response_content r = Some completion ->
  let t1 := out_trace (run App.script W text (Some (str "Analyze"))) in
  let t2 := out_trace (run App2.script W text (Some App2.analyze_label)) in
  In (Shown Markdown completion) t1 /\
  In (DownloadButton (str "Download Results") completion
        (str "medical_entities.txt") (str "text/plain")) t1 /\
  In (Shown Markdown completion) t2 /\
  In (DownloadButton (App2.inbox_tray ++ str " Download Results") completion
        (str "extracted_entities.md") (str "text/markdown")) t2.
Proof.
  intros Hr Hb Ha Hc t1 t2. subst t1 t2.
  rewrite (App_run_answered W text r Hr Hb Ha).
  rewrite (App2_run_answered W text r Hr Hb Ha).
  unfold result_of. rewrite Hc.
  repeat split; in_trace.
Qed.

(** [completion_round_trip] at a client that answers a fixed table. *)
Lemma completion_round_trip_witness :
  ready (world_answering table) /\
  blank (str "fever and aspirin") = false /\
  answers (world_answering table) (reply table) /\
  In (Shown Markdown table)
     (out_trace (run App.script (world_answering table) (str "fever and aspirin")
                   (Some (str "Analyze")))) /\
  In (DownloadButton (App2.inbox_tray ++ str " Download Results") table
        (str "extracted_entities.md") (str "text/markdown"))
     (out_trace (run App2.script (world_answering table) (str "fever and aspirin")
                   (Some App2.analyze_label))).
Proof.
  assert (Hr : ready (world_answering table))
    by (split; [reflexivity | intros; reflexivity]).
  assert (Ha : answers (world_answering table) (reply table))
    by (intros llm messages; reflexivity).
  pose proof (completion_round_trip (world_answering table)
                (str "fever and aspirin") table (reply table)
                Hr eq_refl Ha eq_refl) as H.
  cbv zeta in H. destruct H as (H1 & _ & _ & H2).
  repeat split; first [exact H1 | exact H2 | apply Hr | apply Ha].
Defined.

(** ** The request *)

(** C5: every request either variant sends, in any run, goes through a
    client configured with temperature 0 and with 500 output tokens and a
    10 second time-out (variant 1) or 1000 tokens and 15 seconds (variant
    2), and carries one message whose content is the formatted prompt; and
    pressing Analyze on text that is not blank, with the credential
    present and the client constructed, sends exactly one such request. *)
Theorem request_configuration (W : World) (text : pystr) (click : option pystr) :
  let key := environ W GROQ_API_KEY in
  format App.template [(str "text", text)] = inr (prompt1 text) /\
  format App2.PROMPT_TEMPLATE [(str "text", text)] = inr (prompt2 text) /\
  Forall (request_as_configured (config1 key) 500 10 (prompt1 text))
    (requests_of (out_trace (run App.script W text click))) /\
  Forall (request_as_configured (config2 key) 1000 15 (prompt2 text))
    (requests_of (out_trace (run App2.script W text click))) /\
  (ready W -> blank text = false ->
   requests_of (out_trace (run App.script W text (Some (str "Analyze"))))
     = [(config1 key, [HumanMessage (prompt1 text)])] /\
   requests_of (out_trace (run App2.script W text (Some App2.analyze_label)))
     = [(config2 key, [HumanMessage (prompt2 text)])]).
Proof.
  cbv zeta. unfold request_as_configured, config1, config2, GROQ_API_KEY.
  split; [apply format_template|].
  split; [apply format_PROMPT_TEMPLATE|].
  split; [|split].
  - run_cases; cbn [requests_of out_trace]; repeat constructor.
  - run_cases; cbn [requests_of out_trace]; repeat constructor.
  - intros Hr Hb. open_ready Hr. apply strip_not_blank in Hb. split.
    + run_simpl. rewrite Hkey, Hinit. run_simpl. rewrite Hb. run_simpl.
      now run_cases.
    + run_simpl. rewrite Hb, Hkey. run_simpl. rewrite Hinit. run_simpl.
      now run_cases.
Qed.

(** [request_configuration] at a world whose endpoint times out: the
    request is sent all the same. *)
Lemma request_configuration_witness :
  ready world_timing_out /\
  blank (str "Tim Cook visited Paris") = false /\
  requests_of (out_trace (run App2.script world_timing_out
                            (str "Tim Cook visited Paris")
                            (Some App2.analyze_label)))
  = [(config2 (Some (str "gsk_example")),
      [HumanMessage (prompt2 (str "Tim Cook visited Paris"))])].
Proof.
  assert (Hr : ready world_timing_out)
    by (split; [reflexivity | intros; reflexivity]).
  pose proof (request_configuration world_timing_out
                (str "Tim Cook visited Paris") None) as H.
  cbv zeta in H. destruct H as (_ & _ & _ & _ & H).
  destruct (H Hr eq_refl) as [_ H2].
  repeat split; first [exact H2 | apply Hr].
Defined.

(** ** The answer shown *)

(** C10: for every response object, what is shown and what is offered for
    download are one and the same string: the [content] attribute when
    the response has one, [str(response)] otherwise; computing it cannot
    fail, and the run finishes. *)
Theorem shown_and_downloaded_agree (W : World) (text : pystr) (r : Response) :
  ready W -> blank text = false -> answers W r ->
  let o1 := run App.script W text (Some (str "Analyze")) in
  let o2 := run App2.script W text (Some App2.analyze_label) in
  result_of r = match response_content r with
                | Some c => c
                | None => response_str r
                end /\
  out_status o1 = Finished /\
  In (Shown Markdown (result_of r)) (out_trace o1) /\
  In (DownloadButton (str "Download Results") (result_of r)
        (str "medical_entities.txt") (str "text/plain")) (out_trace o1) /\
  out_status o2 = Finished /\
  In (Shown Markdown (result_of r)) (out_trace o2) /\
  In (DownloadButton (App2.inbox_tray ++ str " Download Results") (result_of r)
        (str "extracted_entities.md") (str "text/markdown")) (out_trace o2).
Proof.
  intros Hr Hb Ha o1 o2. subst o1 o2.
  rewrite (App_run_answered W text r Hr Hb Ha).
  rewrite (App2_run_answered W text r Hr Hb Ha).
  split; [reflexivity|].
  repeat split; in_trace.
Qed.

(** [shown_and_downloaded_agree] at a response without [content]. *)
Lemma shown_and_downloaded_agree_witness :
  ready world_bare /\
  blank (str "fever") = false /\
  answers world_bare bare_response /\
  In (Shown Markdown (str "<Response [200]>"))
     (out_trace (run App.script world_bare (str "fever") (Some (str "Analyze")))).
Proof.
  assert (Hr : ready world_bare)
    by (split; [reflexivity | intros; reflexivity]).
  assert (Ha : answers world_bare bare_response)
    by (intros llm messages; reflexivity).
  pose proof (shown_and_downloaded_agree world_bare (str "fever") bare_response
                Hr eq_refl Ha) as H.
  cbv zeta in H. destruct H as (_ & _ & H1 & _).
  repeat split; first [exact H1 | apply Hr | apply Ha].
Defined.

(** ** Failures *)

(** Neither script ever gets as far as asking for a rerun, so an
    interaction is a single run. *)
Lemma App_never_reruns (W : World) (text : pystr) (click : option pystr) :
  out_status (run App.script W text click) <> Rerun.
Proof. run_cases; discriminate. Qed.

Lemma App2_never_reruns (W : World) (text : pystr) (click : option pystr) :
  out_status (run App2.script W text click) <> Rerun.
Proof. run_cases; discriminate. Qed.

Lemma interact_is_run (script : World -> M unit) (W : World) (text : pystr)
    (a : action) :
  (forall t c, out_status (run script W t c) <> Rerun) ->
  interact script W text a =
  match a with
  | Load => run script W text None
  | Edit t => run script W t None
  | Click l => run script W text (Some l)
  end.
Proof.
  intros H. unfold interact.
  destruct a as [|t|l].
  - specialize (H text None). now destruct (out_status (run script W text None)).
  - specialize (H t None). now destruct (out_status (run script W t None)).
  - specialize (H text (Some l)).
    now destruct (out_status (run script W text (Some l))).
Qed.

(** Every run leaves the text area as it found it. *)
Lemma App_keeps_text (W : World) (text : pystr) (click : option pystr) :
  out_text (run App.script W text click) = text.
Proof. run_cases; reflexivity. Qed.

Lemma App2_keeps_text (W : World) (text : pystr) (click : option pystr) :
  out_text (run App2.script W text click) = text.
Proof. run_cases; reflexivity. Qed.

(** The whole of a run of variant 1 in which the request fails. *)
Lemma App_run_failed (W : World) (text : pystr) (e : exn) :
  ready W -> blank text = false -> fails_with W e ->
  run App.script W text (Some (str "Analyze")) =
  {| out_status := Finished;
     out_trace :=
       [LoadDotenv; Getenv GROQ_API_KEY;
        SetPageConfig (str "Medical Entity Extractor");
        NewChatGroq (config1 (environ W GROQ_API_KEY));
        Shown Title (str "Medical Entity Extractor");
        Shown Body (str "This tool extracts medical entities from text using the Groq LLM API.");
        TextArea (str "Enter the text to analyze:") None;
        Button (str "Analyze");
        SpinnerOpen (str "Analyzing text...");
        Invoke (config1 (environ W GROQ_API_KEY)) [HumanMessage (prompt1 text)];
        Shown ErrorBox (str "Error processing text: " ++ exn_str e);
        Shown InfoBox (str "Please try again or check your API configuration.");
        SpinnerClose];
     out_text := text |}.
Proof.
  intros Hr Hb Hf. open_ready Hr. apply strip_not_blank in Hb.
  unfold config1, GROQ_API_KEY.
  run_simpl. rewrite Hkey, Hinit. run_simpl. rewrite Hb. run_simpl.
  rewrite Hf. reflexivity.
Qed.

(** The whole of a run of variant 2 in which the request fails. *)
Lemma App2_run_failed (W : World) (text : pystr) (e : exn) :
  ready W -> blank text = false -> fails_with W e ->
  run App2.script W text (Some App2.analyze_label) =
  {| out_status := Finished;
     out_trace :=
       [LoadDotenv; SetPageConfig (str "Entity Extractor");
        Getenv GROQ_API_KEY;
        Shown Title (App2.magnifier ++ str " Advanced Entity Extractor");
        Shown Markdown (str "
        This tool extracts named entities from text and identifies associated geographic information.
        Enter your text below to analyze people, organizations, and locations.
        ");
        TextArea (str "Enter text to analyze:") (Some "input_area"%string);
        Columns;
        Button App2.analyze_label;
        Button App2.clear_label;
        NewChatGroq (config2 (environ W GROQ_API_KEY));
        SpinnerOpen (App2.arrows ++ str " Analyzing text...");
        Invoke (config2 (environ W GROQ_API_KEY)) [HumanMessage (prompt2 text)];
        SpinnerClose;
        Shown ErrorBox (App2.cross_mark ++ str " Error during processing: " ++ exn_str e);
        Shown InfoBox (str "Please try again or check your input text.")];
     out_text := text |}.
Proof.
  intros Hr Hb Hf. open_ready Hr. apply strip_not_blank in Hb.
  unfold config2, GROQ_API_KEY.
  run_simpl. rewrite Hb, Hkey. run_simpl. rewrite Hinit. run_simpl.
  rewrite Hf. reflexivity.
Qed.

(** C6: when the request fails with an exception [e], both variants
    catch it and show its text followed by a suggestion to try again; the
    run finishes normally with the spinner taken down, the text area and
    the buttons on the page and the text untouched; and a later press of
    Analyze, once the endpoint answers, shows the answer. *)
Theorem failure_is_reported (W : World) (text : pystr) (e : exn) :
  ready W -> blank text = false -> fails_with W e ->
  let r1 := run App.script W text (Some (str "Analyze")) in
  let r2 := run App2.script W text (Some App2.analyze_label) in
  (out_status r1 = Finished /\ spinners_open (out_trace r1) = 0%Z /\
   input_widgets (out_trace r1) = 2 /\ out_text r1 = text /\
   exists before,
     out_trace r1 =
     before ++ [Shown ErrorBox (str "Error processing text: " ++ exn_str e);
                Shown InfoBox (str "Please try again or check your API configuration.");
                SpinnerClose]) /\
  (out_status r2 = Finished /\ spinners_open (out_trace r2) = 0%Z /\
   input_widgets (out_trace r2) = 3 /\ out_text r2 = text /\
   exists before,
     out_trace r2 =
     before ++ [Shown ErrorBox (App2.cross_mark ++ str " Error during processing: " ++ exn_str e);
                Shown InfoBox (str "Please try again or check your input text.")]) /\
  (forall W' answer, ready W' -> answers W' answer ->
   exists o1 o1' o2 o2',
     interactions App.script text
       [(W, Click (str "Analyze")); (W', Click (str "Analyze"))] = [o1; o1'] /\
     In (Shown Markdown (result_of answer)) (out_trace o1') /\
     interactions App2.script text
       [(W, Click App2.analyze_label); (W', Click App2.analyze_label)] = [o2; o2'] /\
     In (Shown Markdown (result_of answer)) (out_trace o2')).
Proof.
  intros Hr Hb Hf r1 r2. subst r1 r2.
  rewrite (App_run_failed W text e Hr Hb Hf).
  rewrite (App2_run_failed W text e Hr Hb Hf).
  split; [|split].
  - repeat (split; [reflexivity|]).
    eexists. cbn [out_trace].
    match goal with
    | |- ?a :: ?b :: ?c :: ?d :: ?e :: ?f :: ?g :: ?h :: ?i :: ?j :: ?rest = _ =>
        change (a :: b :: c :: d :: e :: f :: g :: h :: i :: j :: rest)
          with ([a; b; c; d; e; f; g; h; i; j] ++ rest)
    end.
    reflexivity.
  - repeat (split; [reflexivity|]).
    eexists. cbn [out_trace].
    match goal with
    | |- ?a :: ?b :: ?c :: ?d :: ?e :: ?f :: ?g :: ?h :: ?i :: ?j :: ?k :: ?l :: ?m :: ?rest = _ =>
        change (a :: b :: c :: d :: e :: f :: g :: h :: i :: j :: k :: l :: m :: rest)
          with ([a; b; c; d; e; f; g; h; i; j; k; l; m] ++ rest)
    end.
    reflexivity.
  - intros W' answer Hr' Ha'.
    do 4 eexists. cbn [interactions].
    rewrite !(interact_is_run App.script) by (intros; apply App_never_reruns).
    rewrite !(interact_is_run App2.script) by (intros; apply App2_never_reruns).
    rewrite App_keeps_text, App2_keeps_text.
    rewrite (App_run_answered W' text answer Hr' Hb Ha').
    rewrite (App2_run_answered W' text answer Hr' Hb Ha').
    split; [reflexivity|]. split; [in_trace|].
    split; [reflexivity|]. in_trace.
Qed.

(** [failure_is_reported] at a time-out. *)
Lemma failure_is_reported_witness :
  ready world_timing_out /\
  blank (str "fever") = false /\
  fails_with world_timing_out timed_out /\
  out_status (run App.script world_timing_out (str "fever") (Some (str "Analyze")))
    = Finished /\
  spinners_open (out_trace (run App2.script world_timing_out (str "fever")
                              (Some App2.analyze_label))) = 0%Z.
Proof.
  assert (Hr : ready world_timing_out)
    by (split; [reflexivity | intros; reflexivity]).
  assert (Hf : fails_with world_timing_out timed_out)
    by (intros llm messages; reflexivity).
  pose proof (failure_is_reported world_timing_out (str "fever") timed_out
                Hr eq_refl Hf) as H.
  cbv zeta in H. destruct H as ((H1 & _) & (_ & H2 & _) & _).
  repeat split; first [exact H1 | exact H2 | apply Hr | apply Hf].
Defined.

(** ** Failure to construct the client *)

(** The whole of a run of variant 1 whose client cannot be constructed. *)
Lemma App_run_init_failed (W : World) (text : pystr) (click : option pystr) (e : exn) :
  truthy_opt (environ W GROQ_API_KEY) = true ->
  ChatGroq_init W (config1 (environ W GROQ_API_KEY)) = Some e ->
  run App.script W text click =
  {| out_status := Stopped;
     out_trace :=
       [LoadDotenv; Getenv GROQ_API_KEY;
        SetPageConfig (str "Medical Entity Extractor");
        NewChatGroq (config1 (environ W GROQ_API_KEY));
        Shown ErrorBox (str "Error initializing ChatGroq: " ++ exn_str e)];
     out_text := text |}.
Proof.
  unfold config1, GROQ_API_KEY. intros Hkey Hinit.
  run_simpl. rewrite Hkey, Hinit. reflexivity.
Qed.

(** The whole of an analysis in variant 2 whose client cannot be
    constructed. *)
Lemma App2_run_init_failed (W : World) (text : pystr) (e : exn) :
  truthy_opt (environ W GROQ_API_KEY) = true ->
  ChatGroq_init W (config2 (environ W GROQ_API_KEY)) = Some e ->
  blank text = false ->
  run App2.script W text (Some App2.analyze_label) =
  {| out_status := Finished;
     out_trace :=
       [LoadDotenv; SetPageConfig (str "Entity Extractor");
        Getenv GROQ_API_KEY;
        Shown Title (App2.magnifier ++ str " Advanced Entity Extractor");
        Shown Markdown (str "
        This tool extracts named entities from text and identifies associated geographic information.
        Enter your text below to analyze people, organizations, and locations.
        ");
        TextArea (str "Enter text to analyze:") (Some "input_area"%string);
        Columns;
        Button App2.analyze_label;
        Button App2.clear_label;
        NewChatGroq (config2 (environ W GROQ_API_KEY));
        Shown ErrorBox (str "Failed to initialize LLM: " ++ exn_str e)];
     out_text := text |}.
Proof.
  unfold config2, GROQ_API_KEY. intros Hkey Hinit Hb.
  apply strip_not_blank in Hb.
  run_simpl. rewrite Hb, Hkey. run_simpl. rewrite Hinit. reflexivity.
Qed.

(** C8: when the [ChatGroq] constructor raises, variant 1 shows the
    failure and stops the run with no input widget on the page, and
    variant 2 shows the failure and abandons the analysis; neither sends a
    request.  Only that attempt is lost: in a later run in which the
    client can be constructed, variant 1 brings up the page again and
    an analysis then shows its answer in either variant. *)
Theorem init_failure_is_recoverable (W : World) (text : pystr) (e : exn) :
  truthy_opt (environ W GROQ_API_KEY) = true ->
  (forall args, ChatGroq_init W args = Some e) ->
  blank text = false ->
  (forall click,
     let r1 := run App.script W text click in
     out_status r1 = Stopped /\
     In (Shown ErrorBox (str "Error initializing ChatGroq: " ++ exn_str e))
        (out_trace r1) /\
     input_widgets (out_trace r1) = 0 /\
     network_calls (out_trace r1) = 0) /\
  (let r2 := run App2.script W text (Some App2.analyze_label) in
   out_status r2 = Finished /\
   In (Shown ErrorBox (str "Failed to initialize LLM: " ++ exn_str e))
      (out_trace r2) /\
   network_calls (out_trace r2) = 0 /\
   filter (fun ev => match ev with DownloadButton _ _ _ _ => true | _ => false end)
     (out_trace r2) = []) /\
  (forall W' answer, ready W' -> answers W' answer ->
   exists o1 o1' o1'' o2 o2',
     interactions App.script text
       [(W, Load); (W', Load); (W', Click (str "Analyze"))] = [o1; o1'; o1''] /\
     input_widgets (out_trace o1') = 2 /\
     In (Shown Markdown (result_of answer)) (out_trace o1'') /\
     interactions App2.script text
       [(W, Click App2.analyze_label); (W', Click App2.analyze_label)] = [o2; o2'] /\
     In (Shown Markdown (result_of answer)) (out_trace o2')).
Proof.
  intros Hkey Hinit Hb. split; [|split].
  - intros click r1. subst r1.
    rewrite (App_run_init_failed W text click e Hkey (Hinit _)).
    split; [reflexivity|]. split; [in_trace|]. split; reflexivity.
  - intros r2. subst r2.
    rewrite (App2_run_init_failed W text e Hkey (Hinit _) Hb).
    split; [reflexivity|]. split; [in_trace|]. split; reflexivity.
  - intros W' answer Hr' Ha'.
    do 5 eexists. cbn [interactions].
    rewrite !(interact_is_run App.script) by (intros; apply App_never_reruns).
    rewrite !(interact_is_run App2.script) by (intros; apply App2_never_reruns).
    rewrite !App_keeps_text, !App2_keeps_text.
    rewrite (App_run_answered W' text answer Hr' Hb Ha').
    rewrite (App2_run_answered W' text answer Hr' Hb Ha').
    split; [reflexivity|].
    split.
    + destruct Hr' as [Hkey' Hinit']. unfold GROQ_API_KEY in Hkey'.
      run_simpl. rewrite Hkey', Hinit'. reflexivity.
    + split; [in_trace|]. split; [reflexivity|]. in_trace.
Qed.

(** [init_failure_is_recoverable] at a constructor that rejects its
    arguments. *)
Lemma init_failure_is_recoverable_witness :
  truthy_opt (environ world_init_failing GROQ_API_KEY) = true /\
  (forall args, ChatGroq_init world_init_failing args = Some bad_client) /\
  blank (str "fever") = false /\
  out_status (run App.script world_init_failing (str "fever") None) = Stopped /\
  network_calls (out_trace (run App2.script world_init_failing (str "fever")
                              (Some App2.analyze_label))) = 0.
Proof.
  pose proof (init_failure_is_recoverable world_init_failing (str "fever")
                bad_client eq_refl (fun _ => eq_refl) eq_refl) as H.
  destruct H as (H1 & H2 & _).
  specialize (H1 None). cbv zeta in H1, H2.
  destruct H1 as (H1 & _). destruct H2 as (_ & _ & H2 & _).
  split; [reflexivity|]. split; [intros; reflexivity|].
  split; [reflexivity|]. split; [exact H1 | exact H2].
Defined.

(** ** The Clear button *)

(** Pressing Clear, in any world and on any text: the assignment to
    [st.session_state.input_area] comes after the text area with that key
    was created, so Streamlit raises; the rerun is never requested and
    the text stays. *)
Lemma App2_run_clear (W : World) (text : pystr) :
  run App2.script W text (Some App2.clear_label) =
  {| out_status := Uncaught (StreamlitAPIException "input_area");
     out_trace :=
       [LoadDotenv; SetPageConfig (str "Entity Extractor");
        Getenv GROQ_API_KEY;
        Shown Title (App2.magnifier ++ str " Advanced Entity Extractor");
        Shown Markdown (str "
        This tool extracts named entities from text and identifies associated geographic information.
        Enter your text below to analyze people, organizations, and locations.
        ");
        TextArea (str "Enter text to analyze:") (Some "input_area"%string);
        Columns;
        Button App2.analyze_label;
        Button App2.clear_label];
     out_text := text |}.
Proof. run_simpl. reflexivity. Qed.

(** C7, the code at the failing input: with "abc" in the text area,
    pressing Clear ends in an uncaught [StreamlitAPIException] and leaves
    "abc" in place, and the press of Analyze that follows sends a request
    for it. *)
Theorem clear_leaves_the_text :
  let session :=
    interactions App2.script (str "abc")
      [(world_answering table, Click App2.clear_label);
       (world_answering table, Click App2.analyze_label)] in
  map out_status session
    = [Uncaught (StreamlitAPIException "input_area"); Finished] /\
  map out_text session = [str "abc"; str "abc"] /\
  map (fun o => requests_of (out_trace o)) session
    = [[]; [(config2 (Some (str "gsk_example")), [HumanMessage (prompt2 (str "abc"))])]].
Proof.
  cbv zeta. repeat split; vm_compute; reflexivity.
Qed.

(** ** Credential and configuration over a session *)

Lemma env_reads_app (a b : list event) :
  env_reads (a ++ b) = env_reads a + env_reads b.
Proof. unfold env_reads. now rewrite filter_app, length_app. Qed.

Lemma App_reads_env_once (W : World) (text : pystr) (click : option pystr) :
  env_reads (out_trace (run App.script W text click)) = 1.
Proof. run_cases; reflexivity. Qed.

Lemma App2_reads_env_once (W : World) (text : pystr) (click : option pystr) :
  env_reads (out_trace (run App2.script W text click)) = 1.
Proof. run_cases; reflexivity. Qed.

Lemma env_reads_session (script : World -> M unit) :
  (forall W t c, out_status (run script W t c) <> Rerun) ->
  (forall W t c, env_reads (out_trace (run script W t c)) = 1) ->
  forall steps text,
    env_reads (session_trace (interactions script text steps)) = List.length steps.
Proof.
  intros Hno Hone steps.
  induction steps as [|[W a] steps IH]; intros text; [reflexivity|].
  cbn [interactions]. unfold session_trace in *.
  cbn [map List.concat List.length]. rewrite env_reads_app, IH.
  rewrite interact_is_run by (intros; apply Hno).
  destruct a; now rewrite Hone.
Qed.

(** C9, refuted as stated: the credential is not read once per process.
    Loading the page of variant 1, typing a word and pressing Analyze are
    three runs of the script, and the environment is read in each. *)
Lemma credential_is_read_again :
  env_reads
    (session_trace
       (interactions App.script []
          [(world_answering table, Load);
           (world_answering table, Edit (str "fever"));
           (world_answering table, Click (str "Analyze"))])) = 3.
Proof. vm_compute. reflexivity. Qed.

(** An interaction whose first run does not ask for a rerun is that run. *)
Lemma interact_run_once (script : World -> M unit) (W : World) (text : pystr)
    (a : action) :
  let first := match a with
               | Load => run script W text None
               | Edit t => run script W t None
               | Click l => run script W text (Some l)
               end in
  out_status first <> Rerun -> interact script W text a = first.
Proof.
  cbv zeta. unfold interact. intros H.
  destruct a as [|t|l]; cbv zeta;
    match goal with
    | |- match out_status ?r with _ => _ end = _ =>
        destruct (out_status r); congruence
    end.
Qed.

(** A run of variant 2 that was not started by Clear does not ask for a
    rerun and leaves the text as it found it.  (Read off the branches of
    [main] other than [if clear_button]; what that branch does plays no
    part.) *)
Lemma App2_run_without_clear (W : World) (text : pystr) (click : option pystr) :
  label_is click App2.clear_label = false ->
  out_status (run App2.script W text click) <> Rerun /\
  out_text (run App2.script W text click) = text.
Proof.
  intros H. destruct click as [c|]; cbn [label_is] in H;
    (split; run_cases; first [congruence | discriminate | reflexivity]).
Qed.

Lemma App2_session_reads_without_clear (steps : list (World * action)) :
  forall text,
    presses App2.clear_label steps = 0 ->
    env_reads (session_trace (interactions App2.script text steps))
      = List.length steps.
Proof.
  induction steps as [|[W a] steps IH]; intros text H; [reflexivity|].
  unfold presses in H. cbn [filter] in H.
  destruct (is_press App2.clear_label (W, a)) eqn:P; [discriminate H|].
  fold (presses App2.clear_label steps) in H.
  unfold is_press in P. cbn [snd] in P.
  cbn [interactions]. unfold session_trace in *.
  cbn [map List.concat List.length]. rewrite env_reads_app.
  assert (Q : forall t c, label_is c App2.clear_label = false ->
              interact App2.script W text
                (match c with Some l => Click l | None => Edit t end)
              = run App2.script W (match c with Some _ => text | None => t end) c).
  { intros t c Hc. destruct c as [l|];
      (rewrite interact_run_once; [reflexivity|]);
      apply App2_run_without_clear; exact Hc. }
  destruct a as [|t|l].
  - rewrite interact_run_once
      by (apply (App2_run_without_clear W text None); reflexivity).
    rewrite App2_reads_env_once.
    rewrite (proj2 (App2_run_without_clear W text None eq_refl)).
    now rewrite IH.
  - rewrite (Q t None eq_refl).
    rewrite App2_reads_env_once.
    rewrite (proj2 (App2_run_without_clear W t None eq_refl)).
    now rewrite IH.
  - rewrite (Q text (Some l) P).
    rewrite App2_reads_env_once.
    rewrite (proj2 (App2_run_without_clear W text (Some l) P)).
    now rewrite IH.
Qed.

(** C9, as amended: in both variants every run of the script reads the
    credential from the environment exactly once; the script runs again
    on every interaction, so a session of variant 1, and a session of
    variant 2 in which Clear is not pressed, reads it once per interaction
    rather than once per process.  Every client is constructed from, and
    every request sent through, the variant's fixed configuration with the
    key just read.  No run of variant 1, and no run of variant 2 that was
    not started by Clear, changes the text the page holds, the only state
    that outlives a run.  (What a press of Clear does is left out here.) *)
Theorem credential_and_configuration (W : World) (text : pystr) (click : option pystr) :
  let key := environ W GROQ_API_KEY in
  let r1 := run App.script W text click in
  let r2 := run App2.script W text click in
  env_reads (out_trace r1) = 1 /\
  env_reads (out_trace r2) = 1 /\
  (forall steps,
     env_reads (session_trace (interactions App.script text steps))
       = List.length steps) /\
  (forall steps,
     presses App2.clear_label steps = 0 ->
     env_reads (session_trace (interactions App2.script text steps))
       = List.length steps) /\
  Forall (eq (config1 key)) (clients_of (out_trace r1)) /\
  Forall (fun q => fst q = config1 key) (requests_of (out_trace r1)) /\
  Forall (eq (config2 key)) (clients_of (out_trace r2)) /\
  Forall (fun q => fst q = config2 key) (requests_of (out_trace r2)) /\
  out_text r1 = text /\
  (click <> Some App2.clear_label -> out_text r2 = text).
Proof.
  cbv zeta.
  split; [apply App_reads_env_once|].
  split; [apply App2_reads_env_once|].
  split.
  { intros steps. apply env_reads_session;
      auto using App_never_reruns, App_reads_env_once. }
  split.
  { intros steps H. now apply App2_session_reads_without_clear. }
  unfold config1, config2, GROQ_API_KEY.
  split; [run_cases; cbn [clients_of out_trace]; repeat constructor|].
  split; [run_cases; cbn [requests_of out_trace]; repeat constructor|].
  split; [run_cases; cbn [clients_of out_trace]; repeat constructor|].
  split; [run_cases; cbn [requests_of out_trace]; repeat constructor|].
  split; [apply App_keeps_text|].
  intros H. apply App2_run_without_clear. now apply label_is_other.
Qed.

(** [credential_and_configuration] at a press of Analyze in variant 2 and
    at a session of three interactions without Clear. *)
Lemma credential_and_configuration_witness :
  Some App2.analyze_label <> Some App2.clear_label /\
  presses App2.clear_label
    [(world_answering table, Load);
     (world_answering table, Edit (str "Tim Cook visited Paris"));
     (world_answering table, Click App2.analyze_label)] = 0 /\
  out_text (run App2.script (world_answering table) (str "Paris")
              (Some App2.analyze_label)) = str "Paris" /\
  env_reads
    (session_trace
       (interactions App2.script (str "Paris")
          [(world_answering table, Load);
           (world_answering table, Edit (str "Tim Cook visited Paris"));
           (world_answering table, Click App2.analyze_label)])) = 3.
Proof.
  assert (H : Some App2.analyze_label <> Some App2.clear_label) by discriminate.
  pose proof (credential_and_configuration (world_answering table) (str "Paris")
                (Some App2.analyze_label)) as T.
  cbv zeta in T.
  destruct T as (_ & _ & _ & Hs & _ & _ & _ & _ & _ & Ht).
  split; [exact H|]. split; [reflexivity|].
  split; [exact (Ht H)|].
  apply Hs. reflexivity.
Defined.

(** ** Whole runs

    Properties of every run, whatever the world, the text and the button:
    what the script does and what it never does. *)

Ltac run_observed :=
  unfold sends1, sends2, answered1, answered2, label_is, config1, config2;
  rewrite <- ?truthy_strip;
  run_cases.

(** A press cannot be of Analyze and of Clear at once. *)
Ltac labels_clash :=
  match goal with
  | H1 : pystr_eqb ?p ?a = true, H2 : pystr_eqb ?p ?b = true |- _ =>
      apply pystr_eqb_eq in H1; apply pystr_eqb_eq in H2;
      rewrite H1 in H2; vm_compute in H2; discriminate H2
  end.

Lemma network_calls_app (a b : list event) :
  network_calls (a ++ b) = network_calls a + network_calls b.
Proof. unfold network_calls. now rewrite filter_app, length_app. Qed.

(** X1: a run sends one request when Analyze was pressed on text that is
    not blank with the credential present and the client constructed, and
    none in every other case. *)
Theorem one_request_exactly_when (W : World) (text : pystr) (click : option pystr) :
  network_calls (out_trace (run App.script W text click))
    = (if sends1 W text click then 1 else 0) /\
  network_calls (out_trace (run App2.script W text click))
    = (if sends2 W text click then 1 else 0).
Proof.
  split; run_observed; first [labels_clash | reflexivity].
Qed.

(** X2: variant 1 constructs a client in every run in which the
    credential is present, pressed button or not; variant 2 constructs one
    only when Analyze was pressed on text that is not blank with the
    credential present. *)
Theorem client_construction (W : World) (text : pystr) (click : option pystr) :
  clients_built (out_trace (run App.script W text click))
    = (if truthy_opt (environ W GROQ_API_KEY) then 1 else 0) /\
  clients_built (out_trace (run App2.script W text click))
    = (if label_is click App2.analyze_label && negb (blank text)
          && truthy_opt (environ W GROQ_API_KEY)
       then 1 else 0).
Proof.
  split; run_observed; first [labels_clash | reflexivity].
Qed.

(** X3: no run leaves a spinner on the page, whether the analysis
    succeeds, fails or never starts. *)
Theorem spinner_always_closed (W : World) (text : pystr) (click : option pystr) :
  spinners_open (out_trace (run App.script W text click)) = 0%Z /\
  spinners_open (out_trace (run App2.script W text click)) = 0%Z.
Proof.
  split; run_cases; first [labels_clash | reflexivity].
Qed.

(** X4: a download is offered exactly in the runs in which a request was
    sent and the endpoint answered it. *)
Theorem download_only_after_answer (W : World) (text : pystr) (click : option pystr) :
  downloads (out_trace (run App.script W text click))
    = (if sends1 W text click && answered1 W text then 1 else 0) /\
  downloads (out_trace (run App2.script W text click))
    = (if sends2 W text click && answered2 W text then 1 else 0).
Proof.
  split; run_observed; first [labels_clash | reflexivity].
Qed.

(** X5: a run shows at most one error box, and never an error box
    together with a download. *)
Theorem one_error_or_one_download (W : World) (text : pystr) (click : option pystr) :
  errors_shown (out_trace (run App.script W text click))
    + downloads (out_trace (run App.script W text click)) <= 1 /\
  errors_shown (out_trace (run App2.script W text click))
    + downloads (out_trace (run App2.script W text click)) <= 1.
Proof.
  split; run_cases; first [labels_clash | cbn; lia].
Qed.

(** X6: in every run the environment is read before a client is
    constructed and a client is constructed before a request is sent, and
    none of the three happens twice. *)
Theorem outside_calls_in_order (W : World) (text : pystr) (click : option pystr) :
  in_order 0 (out_trace (run App.script W text click)) = true /\
  in_order 0 (out_trace (run App2.script W text click)) = true.
Proof.
  split; run_cases; first [labels_clash | reflexivity].
Qed.


(** X8: a run started by any button other than Analyze (in variant 2:
    other than Analyze and Clear) is the same as a reload of the page.  In
    particular pressing "Download Results" reruns the script with Analyze
    unpressed, so the result and the download button are gone and nothing
    is sent. *)
Theorem other_buttons_reload (W : World) (text : pystr) (click : option pystr) :
  click <> Some (str "Analyze") ->
  click <> Some App2.analyze_label ->
  click <> Some App2.clear_label ->
  run App.script W text click = run App.script W text None /\
  run App2.script W text click = run App2.script W text None.
Proof.
  intros H1 H2 H3.
  apply label_is_other in H1, H2, H3.
  destruct click as [c|]; [|split; reflexivity].
  cbn [label_is] in H1, H2, H3.
  split; run_cases; first [congruence | reflexivity].
Qed.

(** [other_buttons_reload] at the download button of variant 1. *)
Lemma other_buttons_reload_witness :
  Some download_label <> Some (str "Analyze") /\
  Some download_label <> Some App2.analyze_label /\
  Some download_label <> Some App2.clear_label /\
  run App.script (world_answering table) (str "fever") (Some download_label)
    = run App.script (world_answering table) (str "fever") None.
Proof.
  assert (H1 : Some download_label <> Some (str "Analyze")) by discriminate.
  assert (H2 : Some download_label <> Some App2.analyze_label) by discriminate.
  assert (H3 : Some download_label <> Some App2.clear_label) by discriminate.
  pose proof (other_buttons_reload (world_answering table) (str "fever")
                (Some download_label) H1 H2 H3) as [H _].
  repeat split; first [exact H1 | exact H2 | exact H3 | exact H].
Defined.

(** ** Whole sessions *)

Lemma App_calls_bounded (W : World) (text : pystr) (click : option pystr) :
  network_calls (out_trace (run App.script W text click))
    <= (if label_is click (str "Analyze") then 1 else 0).
Proof. run_observed; first [labels_clash | cbn; lia]. Qed.

Lemma App2_calls_bounded (W : World) (text : pystr) (click : option pystr) :
  network_calls (out_trace (run App2.script W text click))
    <= (if label_is click App2.analyze_label then 1 else 0).
Proof. run_observed; first [labels_clash | cbn; lia]. Qed.

Lemma session_calls_bounded (script : World -> M unit) (l : pystr) :
  (forall W t c, out_status (run script W t c) <> Rerun) ->
  (forall W t c, network_calls (out_trace (run script W t c))
                   <= (if label_is c l then 1 else 0)) ->
  forall steps text,
    network_calls (session_trace (interactions script text steps))
      <= presses l steps.
Proof.
  intros Hno Hle steps.
  induction steps as [|[W a] steps IH]; intros text; [cbn; lia|].
  cbn [interactions]. unfold session_trace, presses in *.
  cbn [map List.concat filter]. rewrite network_calls_app.
  rewrite interact_is_run by (intros; apply Hno).
  specialize (IH (out_text (match a with
                            | Load => run script W text None
                            | Edit t => run script W t None
                            | Click c => run script W text (Some c)
                            end))).
  unfold is_press at 1. cbn [snd].
  destruct a as [|t|c].
  - pose proof (Hle W text None) as H. cbn [label_is] in H. lia.
  - pose proof (Hle W t None) as H. cbn [label_is] in H. lia.
  - pose proof (Hle W text (Some c)) as H. cbn [label_is] in H.
    destruct (pystr_eqb c l); cbn [List.length]; lia.
Qed.

(** X9: over a whole session the model endpoint is called at most once
    per press of Analyze: loading the page, editing the text and pressing
    any other button never cause a request. *)
Theorem requests_need_a_press (text : pystr) (steps : list (World * action)) :
  network_calls (session_trace (interactions App.script text steps))
    <= presses (str "Analyze") steps /\
  network_calls (session_trace (interactions App2.script text steps))
    <= presses App2.analyze_label steps.
Proof.
  split; apply session_calls_bounded;
    auto using App_never_reruns, App2_never_reruns,
               App_calls_bounded, App2_calls_bounded.
Qed.

(** ** The prompt as a function of the input *)

(** X11: the prompt is as long as the template without its six-character
    field plus the input, and determines the input: two texts with the
    same prompt are the same text, white space included. *)
Theorem prompt_determines_input (a b : pystr) :
  (prompt1 a = prompt1 b -> a = b) /\
  (prompt2 a = prompt2 b -> a = b) /\
  6 + List.length (prompt1 a) = List.length App.template + List.length a /\
  6 + List.length (prompt2 a) = List.length App2.PROMPT_TEMPLATE + List.length a.
Proof.
  unfold prompt1, prompt2.
  split; [|split; [|split]].
  - intros H. apply app_inv_head in H. now apply app_inv_tail in H.
  - intros H. apply app_inv_head in H. now apply app_inv_tail in H.
  - rewrite !length_app.
    assert (E : List.length (before_field App.template) + 6
                + List.length (after_field App.template)
                = List.length App.template) by (vm_compute; reflexivity).
    lia.
  - rewrite !length_app.
    assert (E : List.length (before_field App2.PROMPT_TEMPLATE) + 6
                + List.length (after_field App2.PROMPT_TEMPLATE)
                = List.length App2.PROMPT_TEMPLATE) by (vm_compute; reflexivity).
    lia.
Qed.

(** [prompt_determines_input] at one input written twice. *)
Lemma prompt_determines_input_witness :
  prompt1 (str "fever") = prompt1 (str "fever") /\
  str "fever" = str "fever".
Proof.
  split; [reflexivity|].
  exact (proj1 (prompt_determines_input (str "fever") (str "fever")) eq_refl).
Defined.

(** ** What is on the page *)

(** X12: variant 2 always puts its text area and both buttons on the
    page, in every world and whatever was pressed; variant 1 puts its text
    area and button there exactly when the credential is present and the
    client was constructed, and nothing to type in or press otherwise. *)
Theorem input_widgets_on_page (W : World) (text : pystr) (click : option pystr) :
  input_widgets (out_trace (run App.script W text click))
    = (if page_up1 W then 2 else 0) /\
  input_widgets (out_trace (run App2.script W text click)) = 3.
Proof.
  unfold page_up1.
  split; run_observed; first [labels_clash | reflexivity].
Qed.

(** X13: the "please enter text" warning appears exactly when Analyze was
    pressed on blank text (in variant 1: and the page body is up); it is
    never shown after any other button, on a reload, or for text that is
    not blank. *)
Theorem warning_exactly_when (W : World) (text : pystr) (click : option pystr) :
  warnings_shown (out_trace (run App.script W text click))
    = (if page_up1 W && label_is click (str "Analyze") && blank text
       then 1 else 0) /\
  warnings_shown (out_trace (run App2.script W text click))
    = (if label_is click App2.analyze_label && blank text then 1 else 0).
Proof.
  unfold page_up1.
  rewrite <- (negb_involutive (blank text)).
  split; run_observed; first [labels_clash | reflexivity].
Qed.
